(** * Verification of the OpenLLM prebuilt vLLM service
    (src/bentoml/bentos/mistral-large/123b-instruct-2407-e1ef/src/service.py).

    Shallow embedding of the service module: configuration resolution
    ([MAX_TOKENS], capability flags), the route tables, the streaming
    endpoints [generate] and [sights] as generators in a small
    event/exception monad, the PNG/base64 data-URI construction and the UI
    sub-application. *)

From Stdlib Require Import ZArith List String Ascii Bool Lia.
From Stdlib Require Import Strings.Byte.
Import ListNotations.
Open Scope string_scope.

(* ------------------------------------------------------------------ *)
(** ** Base64 ([base64.b64encode] / [base64.b64decode], RFC 4648) *)

Module Base64.

Local Open Scope Z_scope.

Definition alphabet : string :=
  "ABCDEFGHIJKLMNOPQRSTUVWXYZabcdefghijklmnopqrstuvwxyz0123456789+/".

Definition pad : ascii := "="%char.

(** The character for a 6-bit value. *)
Definition b64char (i : Z) : ascii :=
  match String.get (Z.to_nat i) alphabet with
  | Some c => c
  | None => pad
  end.

(** The 6-bit value of an alphabet character. *)
Definition b64index (c : ascii) : option Z :=
  let n := Z.of_N (N_of_ascii c) in
  if (65 <=? n) && (n <=? 90) then Some (n - 65)
  else if (97 <=? n) && (n <=? 122) then Some (n - 71)
  else if (48 <=? n) && (n <=? 57) then Some (n + 4)
  else if n =? 43 then Some 62
  else if n =? 47 then Some 63
  else None.

Definition bz (b : byte) : Z := Z.of_N (Byte.to_N b).

Definition enc3 (b1 b2 b3 : byte) : list ascii :=
  let n := bz b1 * 65536 + bz b2 * 256 + bz b3 in
  [b64char (n / 262144); b64char ((n / 4096) mod 64);
   b64char ((n / 64) mod 64); b64char (n mod 64)].

Definition enc2 (b1 b2 : byte) : list ascii :=
  let n := bz b1 * 65536 + bz b2 * 256 in
  [b64char (n / 262144); b64char ((n / 4096) mod 64);
   b64char ((n / 64) mod 64); pad].

Definition enc1 (b1 : byte) : list ascii :=
  let n := bz b1 * 65536 in
  [b64char (n / 262144); b64char ((n / 4096) mod 64); pad; pad].

Fixpoint b64encode (bs : list byte) : list ascii :=
  match bs with
  | b1 :: b2 :: b3 :: rest => (enc3 b1 b2 b3 ++ b64encode rest)%list
  | [b1; b2] => enc2 b1 b2
  | [b1] => enc1 b1
  | [] => []
  end.

Definition byte_of_Z (z : Z) : option byte := Byte.of_N (Z.to_N z).

Definition is_pad (c : ascii) : bool := Ascii.eqb c pad.

Definition dec_sextets (c1 c2 c3 c4 : ascii) : option Z :=
  match b64index c1, b64index c2, b64index c3, b64index c4 with
  | Some i1, Some i2, Some i3, Some i4 =>
      Some (i1 * 262144 + i2 * 4096 + i3 * 64 + i4)
  | _, _, _, _ => None
  end.

Definition opt_bind {A B} (o : option A) (f : A -> option B) : option B :=
  match o with Some a => f a | None => None end.

(** Decoding of one group of four characters, with its padding. *)
Definition dec4 (c1 c2 c3 c4 : ascii) (last : bool) : option (list byte) :=
  if last && is_pad c3 && is_pad c4 then
    opt_bind (dec_sextets c1 c2 "A"%char "A"%char) (fun n =>
    opt_bind (byte_of_Z (n / 65536)) (fun b1 => Some [b1]))
  else if last && is_pad c4 then
    opt_bind (dec_sextets c1 c2 c3 "A"%char) (fun n =>
    opt_bind (byte_of_Z (n / 65536)) (fun b1 =>
    opt_bind (byte_of_Z ((n / 256) mod 256)) (fun b2 => Some [b1; b2])))
  else
    opt_bind (dec_sextets c1 c2 c3 c4) (fun n =>
    opt_bind (byte_of_Z (n / 65536)) (fun b1 =>
    opt_bind (byte_of_Z ((n / 256) mod 256)) (fun b2 =>
    opt_bind (byte_of_Z (n mod 256)) (fun b3 => Some [b1; b2; b3])))).

Fixpoint b64decode (cs : list ascii) : option (list byte) :=
  match cs with
  | [] => Some []
  | c1 :: c2 :: c3 :: c4 :: rest =>
      let last := match rest with [] => true | _ => false end in
      opt_bind (dec4 c1 c2 c3 c4 last) (fun bs =>
      opt_bind (b64decode rest) (fun bs' => Some (bs ++ bs')%list))
  | _ => None
  end.

End Base64.


(** ** Base64 round trip *)

Module Base64Facts.
Import Base64.
Local Open Scope Z_scope.

Definition index_ok (k : nat) : bool :=
  match b64index (b64char (Z.of_nat k)) with
  | Some j => j =? Z.of_nat k
  | None => false
  end.

Lemma index_ok_all : forallb index_ok (seq 0 64) = true.
Proof. vm_compute. reflexivity. Qed.

Lemma b64index_b64char (i : Z) : 0 <= i < 64 -> b64index (b64char i) = Some i.
Proof.
  intros Hi.
  assert (Hk : In (Z.to_nat i) (seq 0 64)) by (apply in_seq; lia).
  pose proof (proj1 (forallb_forall _ _) index_ok_all _ Hk) as H.
  unfold index_ok in H. rewrite Z2Nat.id in H by (Z.div_mod_to_equations; lia).
  destruct (b64index (b64char i)) as [j|]; [|discriminate].
  apply Z.eqb_eq in H. now subst.
Qed.

Lemma b64char_not_pad (i : Z) : 0 <= i < 64 -> is_pad (b64char i) = false.
Proof.
  intros Hi. pose proof (b64index_b64char i Hi) as H.
  destruct (is_pad (b64char i)) eqn:E; [|reflexivity].
  apply Ascii.eqb_eq in E. rewrite E in H. discriminate.
Qed.

Lemma bz_bounds (b : byte) : 0 <= bz b < 256.
Proof. unfold bz. pose proof (Byte.to_N_bounded b). lia. Qed.

Lemma byte_of_Z_bz (b : byte) : byte_of_Z (bz b) = Some b.
Proof. unfold byte_of_Z, bz. rewrite N2Z.id. apply Byte.of_to_N. Qed.

Lemma dec_sextets_enc (n : Z) : 0 <= n < 16777216 ->
  dec_sextets (b64char (n / 262144)) (b64char ((n / 4096) mod 64))
              (b64char ((n / 64) mod 64)) (b64char (n mod 64)) = Some n.
Proof.
  intros Hn. unfold dec_sextets.
  rewrite (b64index_b64char (n / 262144)) by (Z.div_mod_to_equations; lia).
  rewrite (b64index_b64char ((n / 4096) mod 64)) by (Z.div_mod_to_equations; lia).
  rewrite (b64index_b64char ((n / 64) mod 64)) by (Z.div_mod_to_equations; lia).
  rewrite (b64index_b64char (n mod 64)) by (Z.div_mod_to_equations; lia).
  f_equal. Z.div_mod_to_equations. lia.
Qed.


Lemma b64char_zero : b64char 0 = "A"%char.
Proof. reflexivity. Qed.

Lemma dec4_enc3 (b1 b2 b3 : byte) (last : bool) :
  match enc3 b1 b2 b3 with
  | [c1; c2; c3; c4] => dec4 c1 c2 c3 c4 last = Some [b1; b2; b3]
  | _ => False
  end.
Proof.
  pose proof (bz_bounds b1); pose proof (bz_bounds b2); pose proof (bz_bounds b3).
  unfold enc3. set (n := bz b1 * 65536 + bz b2 * 256 + bz b3).
  assert (Hn : 0 <= n < 16777216) by (unfold n; lia).
  unfold dec4.
  rewrite (b64char_not_pad ((n / 64) mod 64)) by (Z.div_mod_to_equations; lia).
  rewrite (b64char_not_pad (n mod 64)) by (Z.div_mod_to_equations; lia).
  rewrite !andb_false_r. rewrite (dec_sextets_enc n Hn). cbn [opt_bind].
  assert (E1 : n / 65536 = bz b1) by (unfold n; Z.div_mod_to_equations; lia).
  assert (E2 : (n / 256) mod 256 = bz b2) by (unfold n; Z.div_mod_to_equations; lia).
  assert (E3 : n mod 256 = bz b3) by (unfold n; Z.div_mod_to_equations; lia).
  rewrite E1, E2, E3, !byte_of_Z_bz. reflexivity.
Qed.

Lemma dec4_enc2 (b1 b2 : byte) :
  match enc2 b1 b2 with
  | [c1; c2; c3; c4] => dec4 c1 c2 c3 c4 true = Some [b1; b2]
  | _ => False
  end.
Proof.
  pose proof (bz_bounds b1); pose proof (bz_bounds b2).
  unfold enc2. set (n := bz b1 * 65536 + bz b2 * 256).
  assert (Hn : 0 <= n < 16777216) by (unfold n; lia).
  unfold dec4.
  rewrite (b64char_not_pad ((n / 64) mod 64)) by (Z.div_mod_to_equations; lia).
  assert (Z0 : n mod 64 = 0) by (unfold n; Z.div_mod_to_equations; lia).
  rewrite andb_false_r. cbn [andb is_pad pad Ascii.eqb Bool.eqb].
  rewrite <- b64char_zero, <- Z0, (dec_sextets_enc n Hn). cbn [opt_bind].
  assert (E1 : n / 65536 = bz b1) by (unfold n; Z.div_mod_to_equations; lia).
  assert (E2 : (n / 256) mod 256 = bz b2) by (unfold n; Z.div_mod_to_equations; lia).
  rewrite E1, E2, !byte_of_Z_bz. reflexivity.
Qed.

Lemma dec4_enc1 (b1 : byte) :
  match enc1 b1 with
  | [c1; c2; c3; c4] => dec4 c1 c2 c3 c4 true = Some [b1]
  | _ => False
  end.
Proof.
  pose proof (bz_bounds b1).
  unfold enc1. set (n := bz b1 * 65536).
  assert (Hn : 0 <= n < 16777216) by (unfold n; lia).
  unfold dec4. cbn [andb is_pad pad Ascii.eqb Bool.eqb].
  assert (Z0 : n mod 64 = 0) by (unfold n; Z.div_mod_to_equations; lia).
  assert (Z1 : (n / 64) mod 64 = 0) by (unfold n; Z.div_mod_to_equations; lia).
  replace (dec_sextets _ _ "A"%char "A"%char) with (Some n)
    by (rewrite <- (dec_sextets_enc n Hn), Z0, Z1; reflexivity). cbn [opt_bind].
  assert (E1 : n / 65536 = bz b1) by (unfold n; Z.div_mod_to_equations; lia).
  rewrite E1, !byte_of_Z_bz. reflexivity.
Qed.

Lemma b64decode_b64encode_len (k : nat) (bs : list byte) :
  (List.length bs <= k)%nat -> b64decode (b64encode bs) = Some bs.
Proof.
  revert bs. induction k as [|k IH]; intros bs Hlen.
  - destruct bs; [reflexivity | cbn in Hlen; lia].
  - destruct bs as [|b1 [|b2 [|b3 rest]]].
    + reflexivity.
    + cbn [b64encode]. pose proof (dec4_enc1 b1) as H.
      destruct (enc1 b1) as [|c1 [|c2 [|c3 [|c4 [|]]]]]; try contradiction.
      cbn [b64decode]. rewrite H. reflexivity.
    + cbn [b64encode]. pose proof (dec4_enc2 b1 b2) as H.
      destruct (enc2 b1 b2) as [|c1 [|c2 [|c3 [|c4 [|]]]]]; try contradiction.
      cbn [b64decode]. rewrite H. reflexivity.
    + cbn [b64encode].
      pose proof (dec4_enc3 b1 b2 b3
        (match b64encode rest with [] => true | _ => false end)) as H.
      destruct (enc3 b1 b2 b3) as [|c1 [|c2 [|c3 [|c4 [|]]]]]; try contradiction.
      cbn [app b64decode]. rewrite H. cbn [opt_bind].
      rewrite IH by (cbn in Hlen; lia). reflexivity.
Qed.

Lemma b64decode_b64encode (bs : list byte) : b64decode (b64encode bs) = Some bs.
Proof. apply (b64decode_b64encode_len (List.length bs)). lia. Qed.

End Base64Facts.

(* ------------------------------------------------------------------ *)
(** ** The service module *)

Module Service.
Import Base64.
Local Open Scope Z_scope.

(** *** Configuration (module level of service.py) *)

Record engine_config := {
  model : string;                 (* ENGINE_CONFIG['model'] *)
  max_model_len : option Z        (* ENGINE_CONFIG.get('max_model_len') *)
}.

Record parameters := {
  ENGINE_CONFIG : engine_config;
  SUPPORTS_VISION : bool;         (* PARAMETERS.get('vision', False) *)
  SUPPORTS_EMBEDDINGS : bool      (* PARAMETERS.get('embeddings', False) *)
}.

(** [MAX_TOKENS = min(ENGINE_CONFIG.get('max_model_len', 2048), 4096)] *)
Definition MAX_TOKENS (p : parameters) : Z :=
  Z.min (match max_model_len (ENGINE_CONFIG p) with
         | Some m => m
         | None => 2048
         end) 4096.

(** *** Route tables *)

Inductive http_method := GET | POST.

(** [OPENAI_ENDPOINTS] built in [VLLM.__init__] and added to [openai_api_app]. *)
Definition OPENAI_ENDPOINTS (p : parameters) : list (string * http_method) :=
  [("/models", GET); ("/chat/completions", POST)] ++
  (if SUPPORTS_EMBEDDINGS p then [("/embeddings", POST)] else []).

(** The [@bentoml.api] methods defined in the class body of [VLLM]:
    [generate] under [if not SUPPORTS_EMBEDDINGS], and [sights] nested
    under [if SUPPORTS_VISION]. *)
Definition service_apis (p : parameters) : list string :=
  if negb (SUPPORTS_EMBEDDINGS p) then
    "generate" :: (if SUPPORTS_VISION p then ["sights"] else [])
  else [].

(** The routes [fastapi.FastAPI()] registers in its constructor
    ([FastAPI.setup]), before any route of the module: the OpenAPI schema
    and the documentation pages. *)
Definition fastapi_default_paths : list string :=
  ["/openapi.json"; "/docs"; "/docs/oauth2-redirect"; "/redoc"].

(** BentoML's own HTTP routes of a service app: the index and schema
    pages, the Swagger UI assets, the health probes and the metrics. *)
Definition bentoml_builtin_routes : list (string * http_method) :=
  [("/", GET); ("/docs.json", GET); ("/schema.json", GET);
   ("/static_content", GET); ("/livez", GET); ("/healthz", GET);
   ("/readyz", GET); ("/metrics", GET)].

(** The routes of the deployed service: BentoML's own routes, the OpenAI
    app mounted at [/v1] (FastAPI's default routes, then the
    [OPENAI_ENDPOINTS]), the UI app mounted at [/chat], and one POST route
    per API method. *)
Definition route_table (p : parameters) : list (string * http_method) :=
  bentoml_builtin_routes ++
  map (fun r => ("/v1" ++ r, GET)) fastapi_default_paths ++
  map (fun '(r, m) => ("/v1" ++ r, m)) (OPENAI_ENDPOINTS p) ++
  [("/chat", GET)] ++
  map (fun a => ("/" ++ a, POST)) (service_apis p).

Definition route_paths (p : parameters) : list string := map fst (route_table p).

(** *** Requests, chunks and the loopback client *)

Inductive content_block :=
| TextPart (text : string)              (* dict(type='text', text=...) *)
| ImageUrlPart (url : string).          (* dict(type='image_url', image_url=dict(url=...)) *)

Record message := { role : string; content : list content_block }.

Record chat_request := {
  req_model : string;
  req_messages : list message;
  req_stream : bool;
  req_max_tokens : Z
}.

(** Python exceptions that can reach the endpoints (all subclasses of
    [Exception]). *)
Inductive exn :=
| IndexError                    (* chunk.choices[0] on an empty list *)
| APIConnectionError            (* loopback hop to 127.0.0.1:3000 fails *)
| APIStatusError (code : Z)     (* the completions endpoint answers an error *)
| EngineError (msg : string)    (* raised by the engine while streaming *)
| OSError (msg : string).       (* raised by PIL's image.save *)

Record choice := { delta_content : option string }.   (* choice.delta.content *)
Record chunk := { choices : list choice }.

(** A completion stream: the chunks it delivers, then either a clean end
    ([None]) or an exception raised by the iterator ([Some e]). *)
Record completion_stream := {
  chunks : list chunk;
  stream_failure : option exn
}.

(** A PIL image: its mode and pixel data. *)
Record pil_image := { mode : string; pixels : list byte }.

(** The collaborators the endpoints call: [self.client.chat.completions.create]
    (the AsyncOpenAI client bound to the service's own [/v1] endpoint) and
    the PNG encoder of PIL for the image modes it can write. *)
Record env := {
  create : chat_request -> exn + completion_stream;
  png_encode : pil_image -> list byte
}.

(** Modes PIL's PNG plugin writes ([PngImagePlugin._OUTMODES]); any other
    mode makes [image.save(..., format='PNG')] raise
    [OSError("cannot write mode ... as PNG")]. *)
Definition png_modes : list string :=
  ["1"; "L;1"; "L;2"; "L;4"; "L"; "LA"; "I"; "I;16"; "I;16B";
   "P;1"; "P;2"; "P;4"; "P"; "RGB"; "RGBA"].

Definition image_save_png (e : env) (img : pil_image) : exn + list byte :=
  if existsb (String.eqb (mode img)) png_modes then inr (png_encode e img)
  else inl (OSError ("cannot write mode " ++ mode img ++ " as PNG")).

(** *** Async generators: an event-writer / exception monad *)

Inductive event :=
| Yielded (s : string)          (* a value yielded to the caller *)
| Sent (r : chat_request)       (* a call of the completions client *)
| Logged (s : string).          (* logger.error(...) *)

(** A generator run: the events it produced, then either the exception it
    raised to its consumer or its normal end. *)
Definition Gen (A : Type) : Type := (list event * (exn + A))%type.

Definition ret {A} (a : A) : Gen A := ([], inr a).

Definition bind {A B} (m : Gen A) (f : A -> Gen B) : Gen B :=
  match m with
  | (ev, inl err) => (ev, inl err)
  | (ev, inr a) => let (ev', r) := f a in ((ev ++ ev')%list, r)
  end.

Notation "x <- m ;; k" := (bind m (fun x => k))
  (at level 61, m at next level, right associativity).
Notation "m ;;; k" := (bind m (fun _ => k))
  (at level 61, right associativity).

Definition raise {A} (err : exn) : Gen A := ([], inl err).

Definition lift {A} (r : exn + A) : Gen A := ([], r).

Definition yield (s : string) : Gen unit := ([Yielded s], inr tt).

Definition log_error (s : string) : Gen unit := ([Logged s], inr tt).

(** [try: body except Exception: handler] *)
Definition try_except {A} (body : Gen A) (handler : exn -> Gen A) : Gen A :=
  match body with
  | (ev, inl err) => let (ev', r) := handler err in ((ev ++ ev')%list, r)
  | ok => ok
  end.

(** [async for chunk in completion: body] *)
Fixpoint async_for (cs : list chunk) (tail : option exn)
    (body : chunk -> Gen unit) : Gen unit :=
  match cs with
  | [] => match tail with None => ret tt | Some err => raise err end
  | c :: rest => body c ;;; async_for rest tail body
  end.

(** [await self.client.chat.completions.create(...)] *)
Definition client_create (e : env) (req : chat_request) : Gen completion_stream :=
  ([Sent req], create e req).

(** [chunk.choices[0]] *)
Definition first_choice (c : chunk) : Gen choice :=
  match choices c with
  | ch :: _ => ret ch
  | [] => raise IndexError
  end.

(** Python's [s or ''] on an optional string. *)
Definition or_empty (s : option string) : string :=
  match s with Some t => t | None => "" end.

Definition format_exc (err : exn) : string :=
  match err with
  | IndexError => "IndexError: list index out of range"
  | APIConnectionError => "openai.APIConnectionError: Connection error."
  | APIStatusError _ => "openai.APIStatusError"
  | EngineError m => m
  | OSError m => "OSError: " ++ m
  end.

Definition notice : string :=
  "Internal error found. Check server logs for more information".

(** *** The endpoints *)

Definition default_prompt : string :=
  "Who are you? Please respond in pirate speak!".

Definition generate (e : env) (model_id prompt : string) (max_tokens : Z)
    : Gen unit :=
  try_except
    (completion <- client_create e
        {| req_model := model_id;
           req_messages := [{| role := "user"; content := [TextPart prompt] |}];
           req_stream := true;
           req_max_tokens := max_tokens |} ;;
     async_for (chunks completion) (stream_failure completion)
       (fun chunk => ch <- first_choice chunk ;; yield (or_empty (delta_content ch))))
    (fun err => log_error (format_exc err) ;;; yield notice).

Definition sights (e : env) (model_id prompt : string)
    (image : option pil_image) (max_tokens : Z) : Gen unit :=
  content <- (match image with
              | Some img =>
                  buffered <- lift (image_save_png e img) ;;
                  let img_str := string_of_list_ascii (b64encode buffered) in
                  let image_url := "data:image/png;base64," ++ img_str in
                  ret [ImageUrlPart image_url; TextPart prompt]
              | None => ret [TextPart prompt]
              end) ;;
  try_except
    (completion <- client_create e
        {| req_model := model_id;
           req_messages := [{| role := "user"; content := content |}];
           req_stream := true;
           req_max_tokens := max_tokens |} ;;
     async_for (chunks completion) (stream_failure completion)
       (fun chunk => ch <- first_choice chunk ;; yield (or_empty (delta_content ch))))
    (fun err => log_error (format_exc err) ;;; yield notice).

(** *** BentoML dispatch of the API methods *)

Inductive api_call :=
| CallGenerate (prompt : option string) (max_tokens : option Z)
| CallSights (prompt : option string) (image : option pil_image)
             (max_tokens : option Z).

Inductive api_response :=
| NoRoute                        (* 404: method not defined on the class *)
| Rejected                       (* 400: input validation error *)
| Streamed (run : Gen unit).     (* the generator's run *)

(** [Annotated[int, Ge(128), Le(MAX_TOKENS)]] checks a supplied value;
    an omitted argument takes the default [MAX_TOKENS] (pydantic does not
    validate defaults). *)
Definition max_tokens_valid (p : parameters) (m : Z) : bool :=
  (128 <=? m) && (m <=? MAX_TOKENS p).

Definition bind_max_tokens (p : parameters) (mt : option Z) : option Z :=
  match mt with
  | None => Some (MAX_TOKENS p)
  | Some m => if max_tokens_valid p m then Some m else None
  end.

Definition api_registered (p : parameters) (name : string) : bool :=
  existsb (String.eqb name) (service_apis p).

Definition dispatch (p : parameters) (e : env) (call : api_call) : api_response :=
  let model_id := model (ENGINE_CONFIG p) in
  match call with
  | CallGenerate pr mt =>
      if api_registered p "generate" then
        match bind_max_tokens p mt with
        | Some m => Streamed (generate e model_id (match pr with Some s => s | None => default_prompt end) m)
        | None => Rejected
        end
      else NoRoute
  | CallSights pr img mt =>
      if api_registered p "sights" then
        match bind_max_tokens p mt with
        | Some m => Streamed (sights e model_id (match pr with Some s => s | None => default_prompt end) img m)
        | None => Rejected
        end
      else NoRoute
  end.

End Service.

(* ------------------------------------------------------------------ *)
(** ** The UI sub-application ([ui_app], mounted at [/chat]) *)

Module UI.

Inductive fs_entry := Missing | RegularFile (body : string) | Directory.

(** The file system as seen by [os.path.exists] and [FileResponse]. *)
Definition filesystem := string -> fs_entry.

Definition slash : ascii := "/"%char.

Definition ends_with_slash (a : string) : bool :=
  match String.get (String.length a - 1) a with
  | Some c => Ascii.eqb c slash
  | None => false
  end.

(** [os.path.join(a, b)] (posixpath): an absolute [b] discards [a]. *)
Definition os_path_join (a b : string) : string :=
  if String.prefix "/" b then b
  else if (a =? "") || ends_with_slash a then a ++ b
  else a ++ "/" ++ b.

Definition os_path_exists (fs : filesystem) (p : string) : bool :=
  match fs p with Missing => false | _ => true end.

Inductive http_response :=
| FileResp (path body : string)
| NotFound404
| ServerError500
| FastAPIPage (path : string).  (* FastAPI's schema or documentation page *)

(** Starlette's [FileResponse]: a regular file is sent; anything else fails
    when the response is sent. *)
Definition FileResponse (fs : filesystem) (p : string) : http_response :=
  match fs p with
  | RegularFile b => FileResp p b
  | _ => ServerError500
  end.

(** Path segments and lexical normalisation ([os.path.normpath]). *)
Fixpoint split_slash_aux (s cur : string) : list string :=
  match s with
  | EmptyString => [cur]
  | String c r =>
      if Ascii.eqb c slash then cur :: split_slash_aux r ""
      else split_slash_aux r (cur ++ String c "")
  end.

Definition split_slash (s : string) : list string := split_slash_aux s "".

Fixpoint norm_aux (segs : list string) (stack : list string) : list string :=
  match segs with
  | [] => rev stack
  | s :: rest =>
      if (s =? "") || (s =? ".") then norm_aux rest stack
      else if s =? ".." then norm_aux rest (tl stack)
      else norm_aux rest (s :: stack)
  end.

Definition norm_segments (p : string) : list string := norm_aux (split_slash p) [].

Fixpoint seg_prefix (a b : list string) : bool :=
  match a, b with
  | [], _ => true
  | x :: a', y :: b' => (x =? y) && seg_prefix a' b'
  | _ :: _, [] => false
  end.

(** [p] resolves to the directory [root] or to a path below it. *)
Definition within (root p : string) : bool :=
  seg_prefix (norm_segments root) (norm_segments p).

Fixpoint join_slash (segs : list string) : string :=
  match segs with
  | [] => ""
  | [x] => x
  | x :: rest => x ++ "/" ++ join_slash rest
  end.

(** [staticfiles.StaticFiles(directory=STATIC_DIR)] with [html=False].
    [get_path] keeps the non-empty segments of the path inside the mount
    ([os.path.join( *route_path.split('/'))], then [os.path.normpath]);
    [lookup_path] joins the result to the directory, resolves it
    ([os.path.realpath], lexical here: the model has no symbolic links) and
    looks it up only when it is the directory or below it; a regular file
    is served, anything else is 404. *)
Definition static_files (fs : filesystem) (dir rest : string) : http_response :=
  let rel := join_slash (filter (fun x => negb (x =? "")) (split_slash rest)) in
  let full := "/" ++ join_slash (norm_segments (os_path_join dir rel)) in
  if within dir full then
    match fs full with
    | RegularFile b => FileResp full b
    | _ => NotFound404
    end
  else NotFound404.

(** [serve_chat_html] *)
Definition serve_chat_html (fs : filesystem) (STATIC_DIR : string) : http_response :=
  FileResponse fs (os_path_join STATIC_DIR "chat.html").

(** [catch_all] *)
Definition catch_all (fs : filesystem) (STATIC_DIR full_path : string)
    : http_response :=
  let file_path := os_path_join STATIC_DIR full_path in
  if os_path_exists fs file_path then FileResponse fs file_path
  else FileResponse fs (os_path_join STATIC_DIR "chat.html").

(** The router of [ui_app], in registration order: the routes
    [fastapi.FastAPI()] adds in its constructor, the [/static] mount,
    [GET /], then [GET /{full_path:path}]. [path] is the request path
    inside the mounted app (it starts with a slash). *)
Definition ui_app (fs : filesystem) (STATIC_DIR path : string) : http_response :=
  if existsb (String.eqb path) Service.fastapi_default_paths then FastAPIPage path
  else if String.prefix "/static/" path then
    static_files fs STATIC_DIR (substring 8 (String.length path - 8) path)
  else if path =? "/" then serve_chat_html fs STATIC_DIR
  else match path with
       | String c full_path =>
           if Ascii.eqb c slash then catch_all fs STATIC_DIR full_path
           else NotFound404
       | EmptyString => NotFound404
       end.

End UI.

(* ------------------------------------------------------------------ *)
(** ** Configuration values, image build and engine/server arguments *)

Module Config.
Import Service.
Local Open Scope Z_scope.

Local Set Warnings "-register-all".

(** Python values as loaded by [yaml.safe_load] (floats aside). *)
Inductive pyval :=
| PNone
| PBool (b : bool)
| PInt (z : Z)
| PStr (s : string)
| PList (l : list pyval)
| PDict (d : list (string * pyval)).

(** A dict, in insertion order. *)
Definition dict := list (string * pyval).

Fixpoint dict_lookup (d : dict) (k : string) : option pyval :=
  match d with
  | [] => None
  | (k', v) :: rest => if String.eqb k' k then Some v else dict_lookup rest k
  end.

(** [d[k] = v] (and [setattr(ns, k, v)] on a namespace): an existing key
    keeps its position, a new key goes last. *)
Fixpoint dict_set (d : dict) (k : string) (v : pyval) : dict :=
  match d with
  | [] => [(k, v)]
  | (k', v') :: rest =>
      if String.eqb k' k then (k, v) :: rest else (k', v') :: dict_set rest k v
  end.

(** *** The image build (lines 43-52) *)

Inductive build_step :=
| PythonImage (python_version : string)
| Run (cmd : string)
| RequirementsFile (path : string)
| PythonPackages (pkgs : list string).

Definition build_image (PRE_COMMANDS REQUIREMENTS_TXT POST_COMMANDS : list string)
    : list build_step :=
  let IMAGE := [PythonImage "3.11"] in
  let IMAGE := if (0 <? List.length PRE_COMMANDS)%nat
               then fold_left (fun img cmd => (img ++ [Run cmd])%list) PRE_COMMANDS IMAGE
               else IMAGE in
  let IMAGE := (IMAGE ++ [RequirementsFile "requirements.txt"])%list in
  let IMAGE := if (0 <? List.length REQUIREMENTS_TXT)%nat
               then (IMAGE ++ [PythonPackages REQUIREMENTS_TXT])%list
               else IMAGE in
  if (0 <? List.length POST_COMMANDS)%nat
  then fold_left (fun img cmd => (img ++ [Run cmd])%list) POST_COMMANDS IMAGE
  else IMAGE.

(** *** Engine and server arguments built in [VLLM.__init__] *)

(** [dict(ENGINE_CONFIG, model=self.model)] *)
Definition engine_args (ENGINE_CONFIG : dict) (model_path : string) : dict :=
  dict_set ENGINE_CONFIG "model" (PStr model_path).

(** The attributes set on [args] before the [SERVER_CONFIG] overlay. *)
Definition default_args (model_path model_id : string) : dict :=
  [("model", PStr model_path);
   ("disable_log_requests", PBool true);
   ("max_log_len", PInt 1000);
   ("response_role", PStr "assistant");
   ("served_model_name", PList [PStr model_id]);
   ("chat_template", PNone);
   ("chat_template_content_format", PStr "auto");
   ("lora_modules", PNone);
   ("prompt_adapters", PNone);
   ("request_logger", PNone);
   ("disable_log_stats", PBool true);
   ("return_tokens_as_token_ids", PBool false);
   ("enable_tool_call_parser", PBool false);
   ("enable_auto_tool_choice", PBool false);
   ("tool_call_parser", PNone);
   ("enable_prompt_tokens_details", PBool false);
   ("enable_reasoning", PBool false);
   ("reasoning_parser", PNone)].

(** [for key, value in SERVER_CONFIG.items(): setattr(args, key, value)] *)
Definition server_args (model_path model_id : string) (SERVER_CONFIG : dict) : dict :=
  fold_left (fun ns kv => dict_set ns (fst kv) (snd kv)) SERVER_CONFIG
            (default_args model_path model_id).

End Config.

(* ------------------------------------------------------------------ *)
(** ** Configuration and routing *)

Module ConfigFacts.
Import Service.
Local Open Scope Z_scope.

(** C7: with a declared [max_model_len] m, [MAX_TOKENS] is [min(m, 4096)];
    for every configuration [MAX_TOKENS] is at most 4096. *)
Theorem MAX_TOKENS_is_min_4096 :
  (forall (mid : string) (m : Z) (vis emb : bool),
      MAX_TOKENS {| ENGINE_CONFIG := {| model := mid; max_model_len := Some m |};
                    SUPPORTS_VISION := vis; SUPPORTS_EMBEDDINGS := emb |}
      = Z.min m 4096) /\
  (forall p : parameters, MAX_TOKENS p <= 4096).
Proof.
  split.
  - intros. reflexivity.
  - intros p. unfold MAX_TOKENS. lia.
Qed.

(** C10: without [max_model_len] the ceiling is 2048, the accepted
    [max_tokens] are exactly [128..2048], an omitted [max_tokens] becomes
    2048, and both endpoints (when registered) run with 2048 then. *)
Theorem MAX_TOKENS_default_2048 (p : parameters) (e : env) (pr : option string)
    (img : option pil_image) :
  max_model_len (ENGINE_CONFIG p) = None ->
  MAX_TOKENS p = 2048 /\
  (forall m, max_tokens_valid p m = true <-> 128 <= m <= 2048) /\
  bind_max_tokens p None = Some 2048 /\
  (api_registered p "generate" = true ->
     dispatch p e (CallGenerate pr None) =
     Streamed (generate e (model (ENGINE_CONFIG p))
                 (match pr with Some s => s | None => default_prompt end) 2048)) /\
  (api_registered p "sights" = true ->
     dispatch p e (CallSights pr img None) =
     Streamed (sights e (model (ENGINE_CONFIG p))
                 (match pr with Some s => s | None => default_prompt end) img 2048)).
Proof.
  intros Hnone.
  assert (HM : MAX_TOKENS p = 2048) by (unfold MAX_TOKENS; rewrite Hnone; reflexivity).
  split; [exact HM|]. split; [|split; [|split]].
  - intros m. unfold max_tokens_valid. rewrite HM, andb_true_iff, !Z.leb_le. lia.
  - cbn. rewrite HM. reflexivity.
  - intros Hg. unfold dispatch. rewrite Hg. cbn [bind_max_tokens]. rewrite HM. reflexivity.
  - intros Hs. unfold dispatch. rewrite Hs. cbn [bind_max_tokens]. rewrite HM. reflexivity.
Qed.

Definition p_text_only : parameters :=
  {| ENGINE_CONFIG := {| model := "mistralai/Mistral-Large-Instruct-2407";
                         max_model_len := None |};
     SUPPORTS_VISION := true; SUPPORTS_EMBEDDINGS := false |}.

Definition env_echo : env :=
  {| create := fun _ => inr {| chunks := []; stream_failure := None |};
     png_encode := fun img => pixels img |}.

Lemma MAX_TOKENS_default_2048_witness :
  max_model_len (ENGINE_CONFIG p_text_only) = None /\
  MAX_TOKENS p_text_only = 2048.
Proof.
  split; [reflexivity|].
  exact (proj1 (MAX_TOKENS_default_2048 p_text_only env_echo None None eq_refl)).
Defined.





(** C3: the routes of the service: [/v1/embeddings] iff embeddings are
    supported; [/sights] iff vision is supported and embeddings are not;
    [/generate] iff embeddings are not supported. *)
Theorem route_table_by_capabilities (p : parameters) :
  (In "/v1/embeddings" (route_paths p) <-> SUPPORTS_EMBEDDINGS p = true) /\
  (In "/sights" (route_paths p) <->
     SUPPORTS_VISION p = true /\ SUPPORTS_EMBEDDINGS p = false) /\
  (In "/generate" (route_paths p) <-> SUPPORTS_EMBEDDINGS p = false).
Proof.
  destruct p as [ec [|] [|]]; cbn; intuition congruence.
Qed.

End ConfigFacts.

(* ------------------------------------------------------------------ *)
(** ** Streaming endpoints *)

Module StreamFacts.
Import Base64 Base64Facts Service ConfigFacts.
Local Open Scope Z_scope.

(** The text a chunk carries: [chunk.choices[0].delta.content or '']. *)
Definition chunk_text (c : chunk) : string :=
  match choices c with
  | ch :: _ => or_empty (delta_content ch)
  | [] => ""
  end.

Definition end_of (tail : option exn) : exn + unit :=
  match tail with None => inr tt | Some err => inl err end.

Lemma async_for_relay (cs : list chunk) (tail : option exn) :
  Forall (fun c => choices c <> []) cs ->
  async_for cs tail
    (fun chunk => ch <- first_choice chunk ;; yield (or_empty (delta_content ch)))
  = (map (fun c => Yielded (chunk_text c)) cs, end_of tail).
Proof.
  induction 1 as [|c rest Hc _ IH].
  - destruct tail; reflexivity.
  - cbn [async_for]. rewrite IH. cbn [map].
    destruct (choices c) as [|ch chs] eqn:E; [contradiction|].
    replace (chunk_text c) with (or_empty (delta_content ch))
      by (unfold chunk_text; rewrite E; reflexivity).
    unfold first_choice. rewrite E. reflexivity.
Qed.

Lemma try_client_first {A} (e : env) (req : chat_request)
    (k : completion_stream -> Gen A) (h : exn -> Gen A) :
  exists rest, fst (try_except (bind (client_create e req) k) h) = Sent req :: rest.
Proof.
  unfold try_except, bind, client_create.
  destruct (create e req) as [err|c].
  - destruct (h err). eexists. reflexivity.
  - destruct (k c) as [ev [err|a]] eqn:E.
    + destruct (h err). eexists. reflexivity.
    + eexists. reflexivity.
Qed.

(** The [try] block shared by [generate] and [sights]: send [req], relay
    the stream, and on any exception log it and yield the notice. *)
Definition relay (e : env) (req : chat_request) : Gen unit :=
  try_except
    (completion <- client_create e req ;;
     async_for (chunks completion) (stream_failure completion)
       (fun chunk => ch <- first_choice chunk ;; yield (or_empty (delta_content ch))))
    (fun err => log_error (format_exc err) ;;; yield notice).

Definition user_request (model_id : string) (content : list content_block) (m : Z)
    : chat_request :=
  {| req_model := model_id;
     req_messages := [{| role := "user"; content := content |}];
     req_stream := true; req_max_tokens := m |}.

Definition data_uri (bytes : list byte) : string :=
  "data:image/png;base64," ++ string_of_list_ascii (b64encode bytes).

Lemma bind_ret {A B} (a : A) (f : A -> Gen B) : bind (ret a) f = f a.
Proof. unfold bind, ret. destruct (f a). reflexivity. Qed.

Lemma generate_relay (e : env) (model_id prompt : string) (m : Z) :
  generate e model_id prompt m = relay e (user_request model_id [TextPart prompt] m).
Proof. reflexivity. Qed.

Lemma sights_relay_text (e : env) (model_id prompt : string) (m : Z) :
  sights e model_id prompt None m = relay e (user_request model_id [TextPart prompt] m).
Proof. unfold sights. rewrite bind_ret. reflexivity. Qed.

Lemma sights_relay_image (e : env) (model_id prompt : string) (img : pil_image)
    (m : Z) (bytes : list byte) :
  image_save_png e img = inr bytes ->
  sights e model_id prompt (Some img) m =
  relay e (user_request model_id [ImageUrlPart (data_uri bytes); TextPart prompt] m).
Proof.
  intros H. unfold sights. unfold lift. rewrite H.
  change (([], inr bytes) : Gen (list byte)) with (ret bytes).
  rewrite bind_ret, bind_ret. reflexivity.
Qed.

(** The run of [relay] when the client answers with the stream [s]: the
    request, then one value per chunk, in order; a failure of the stream
    adds the log line and the notice. *)
Definition relayed (req : chat_request) (s : completion_stream) : Gen unit :=
  match stream_failure s with
  | None => (Sent req :: map (fun c => Yielded (chunk_text c)) (chunks s), inr tt)
  | Some err => (((Sent req :: map (fun c => Yielded (chunk_text c)) (chunks s))
                 ++ [Logged (format_exc err); Yielded notice])%list, inr tt)
  end.

(** The run of [relay] for each answer of the client. *)
Lemma relay_stream (e : env) (req : chat_request) (s : completion_stream) :
  create e req = inr s ->
  Forall (fun c => choices c <> []) (chunks s) ->
  relay e req = relayed req s.
Proof.
  intros Hc Hf. unfold relay.
  unfold bind at 1, client_create. rewrite Hc.
  rewrite (async_for_relay _ _ Hf).
  unfold relayed. destruct (stream_failure s); reflexivity.
Qed.

Lemma relay_create_fails (e : env) (req : chat_request) (err : exn) :
  create e req = inl err ->
  relay e req = ([Sent req; Logged (format_exc err); Yielded notice], inr tt).
Proof. intros Hc. unfold relay, bind, client_create. rewrite Hc. reflexivity. Qed.

(** Failures of the completions call or of the stream are contained: the
    run ends, normally, with one notice after the chunks relayed so far. *)
Lemma relay_contains_failures (e : env) (req : chat_request) :
  (forall err, create e req = inl err ->
     exists ev, relay e req = ((ev ++ [Yielded notice])%list, inr tt)) /\
  (forall s err, create e req = inr s -> stream_failure s = Some err ->
     exists ev, relay e req = ((ev ++ [Yielded notice])%list, inr tt)).
Proof.
  split.
  - intros err Hc. exists [Sent req; Logged (format_exc err)].
    rewrite (relay_create_fails _ _ _ Hc). reflexivity.
  - intros s err Hc Hs. unfold relay, bind at 1, client_create. rewrite Hc.
    cut (exists ev err', async_for (chunks s) (stream_failure s)
           (fun chunk => ch <- first_choice chunk ;; yield (or_empty (delta_content ch)))
         = (ev, inl err')).
    { intros [ev [err' Hev]]. rewrite Hev.
      exists (Sent req :: ev ++ [Logged (format_exc err')])%list.
      cbn. rewrite <- app_assoc. reflexivity. }
    rewrite Hs. clear Hc Hs. induction (chunks s) as [|c rest IH].
    + exists [], err. reflexivity.
    + destruct IH as [ev [err' Hev]]. cbn [async_for]. rewrite Hev.
      unfold first_choice. destruct (choices c) as [|ch chs].
      * exists [], IndexError. reflexivity.
      * exists (Yielded (or_empty (delta_content ch)) :: ev), err'. reflexivity.
Qed.

(** C8: every chunk of the stream is re-emitted, in order, as
    [chunk.choices[0].delta.content or ''] (so chunks without text give
    [""]), by [generate] and by [sights]. The chunks are those of the
    completions endpoint, each with a first choice. *)
Theorem relay_emits_every_chunk (e : env) (model_id prompt : string)
    (img : option pil_image) (m : Z) (s : completion_stream) :
  Forall (fun c => choices c <> []) (chunks s) ->
  (forall req, create e req = inr s) ->
  (exists req, generate e model_id prompt m = relayed req s) /\
  ((match img with Some i => exists bytes, image_save_png e i = inr bytes
                 | None => True end) ->
   exists req, sights e model_id prompt img m = relayed req s).
Proof.
  intros Hf Hc. split.
  - eexists. rewrite generate_relay. apply relay_stream; auto.
  - destruct img as [i|].
    + intros [bytes Hb]. eexists. rewrite (sights_relay_image _ _ _ _ _ _ Hb).
      apply relay_stream; auto.
    + intros _. eexists. rewrite sights_relay_text. apply relay_stream; auto.
Qed.

Definition text_chunk (t : option string) : chunk :=
  {| choices := [{| delta_content := t |}] |}.

Definition env_ping : env :=
  {| create := fun _ => inr {| chunks := map text_chunk
                                  [Some "p"; Some "o"; None; Some "n"; Some "g"];
                              stream_failure := None |};
     png_encode := fun img => pixels img |}.

Lemma relay_emits_every_chunk_witness :
  exists req, generate env_ping "m" "ping" 128 =
    ([Sent req; Yielded "p"; Yielded "o"; Yielded ""; Yielded "n"; Yielded "g"], inr tt).
Proof.
  destruct (relay_emits_every_chunk env_ping "m" "ping" None 128
              {| chunks := map text_chunk
                             [Some "p"; Some "o"; None; Some "n"; Some "g"];
                 stream_failure := None |}
              ltac:(repeat constructor; discriminate) (fun _ => eq_refl))
    as [[req Hreq] _].
  exists req. rewrite Hreq. reflexivity.
Defined.

(** C4: [sights] with an image (vision on) sends first a request whose
    content is the image block then the text block; the image block's URL
    is ["data:image/png;base64," ++ payload] where the payload is the
    base64 encoding of the PNG bytes, and decoding it gives those bytes. *)
Theorem sights_image_data_uri (p : parameters) (e : env) (pr : option string)
    (img : pil_image) (mt : option Z) (m : Z) (bytes : list byte) :
  SUPPORTS_VISION p = true -> SUPPORTS_EMBEDDINGS p = false ->
  bind_max_tokens p mt = Some m ->
  image_save_png e img = inr bytes ->
  exists run payload rest,
    dispatch p e (CallSights pr (Some img) mt) = Streamed run /\
    fst run = Sent {| req_model := model (ENGINE_CONFIG p);
                      req_messages :=
                        [{| role := "user";
                            content := [ImageUrlPart ("data:image/png;base64," ++ payload);
                                        TextPart (match pr with Some t => t
                                                  | None => default_prompt end)] |}];
                      req_stream := true; req_max_tokens := m |} :: rest /\
    payload = string_of_list_ascii (b64encode bytes) /\
    b64decode (list_ascii_of_string payload) = Some bytes.
Proof.
  intros Hv He Hm Hs.
  assert (Hreg : api_registered p "sights" = true)
    by (unfold api_registered, service_apis; rewrite Hv, He; reflexivity).
  set (req := user_request (model (ENGINE_CONFIG p))
                [ImageUrlPart (data_uri bytes);
                 TextPart (match pr with Some t => t | None => default_prompt end)] m).
  destruct (try_client_first e req
             (fun completion => async_for (chunks completion) (stream_failure completion)
               (fun chunk => ch <- first_choice chunk ;; yield (or_empty (delta_content ch))))
             (fun err => log_error (format_exc err) ;;; yield notice)) as [rest Hrest].
  exists (relay e req), (string_of_list_ascii (b64encode bytes)), rest.
  split; [|split; [|split]].
  - unfold dispatch. rewrite Hreg, Hm. f_equal.
    apply sights_relay_image. exact Hs.
  - exact Hrest.
  - reflexivity.
  - rewrite list_ascii_of_string_of_list_ascii. apply b64decode_b64encode.
Qed.

Definition rgb_image : pil_image := {| mode := "RGB"; pixels := [x89; x50; x4e; x47] |}.

Lemma sights_image_data_uri_witness :
  exists run payload rest,
    dispatch p_text_only env_echo (CallSights None (Some rgb_image) None) = Streamed run /\
    fst run = Sent {| req_model := "mistralai/Mistral-Large-Instruct-2407";
                      req_messages :=
                        [{| role := "user";
                            content := [ImageUrlPart ("data:image/png;base64," ++ payload);
                                        TextPart default_prompt] |}];
                      req_stream := true; req_max_tokens := 2048 |} :: rest /\
    payload = "iVBORw==" /\
    b64decode (list_ascii_of_string payload) = Some [x89; x50; x4e; x47].
Proof.
  exact (sights_image_data_uri p_text_only env_echo None rgb_image None 2048
           [x89; x50; x4e; x47] eq_refl eq_refl eq_refl eq_refl).
Defined.

(** C1 (defect): in [sights] the image is encoded before the [try] block,
    so a PNG serialisation failure during request construction is not
    contained: the generator raises the [OSError] to the caller and yields
    nothing, in particular no notice. *)
Theorem sights_encoding_failure_escapes (p : parameters) (e : env)
    (pr : option string) (img : pil_image) (mt : option Z) (m : Z) :
  SUPPORTS_VISION p = true -> SUPPORTS_EMBEDDINGS p = false ->
  bind_max_tokens p mt = Some m ->
  existsb (String.eqb (mode img)) png_modes = false ->
  dispatch p e (CallSights pr (Some img) mt) =
  Streamed ([], inl (OSError ("cannot write mode " ++ mode img ++ " as PNG"))).
Proof.
  intros Hv He Hm Hmode.
  assert (Hreg : api_registered p "sights" = true)
    by (unfold api_registered, service_apis; rewrite Hv, He; reflexivity).
  unfold dispatch. rewrite Hreg, Hm. unfold sights, lift, image_save_png.
  rewrite Hmode. reflexivity.
Qed.

Definition cmyk_image : pil_image := {| mode := "CMYK"; pixels := [x00; x00; x00; xff] |}.

Lemma sights_encoding_failure_escapes_witness :
  dispatch p_text_only env_echo (CallSights (Some "describe") (Some cmyk_image) (Some 256))
  = Streamed ([], inl (OSError "cannot write mode CMYK as PNG")).
Proof.
  exact (sights_encoding_failure_escapes p_text_only env_echo (Some "describe")
           cmyk_image (Some 256) 256 eq_refl eq_refl eq_refl eq_refl).
Defined.

(** C5 (defect): the same failure on a concrete call: a CMYK image sent
    to [sights] makes the stream raise [OSError] with no notice chunk,
    whereas a failure of the completions call in the same endpoint ends
    in the notice. *)
Theorem sights_cmyk_not_contained :
  dispatch p_text_only env_echo (CallSights None (Some cmyk_image) None)
  = Streamed ([], inl (OSError "cannot write mode CMYK as PNG")) /\
  dispatch p_text_only
    {| create := fun _ => inl APIConnectionError; png_encode := pixels |}
    (CallSights None None None)
  = Streamed ([Sent (user_request "mistralai/Mistral-Large-Instruct-2407"
                        [TextPart default_prompt] 2048);
               Logged (format_exc APIConnectionError); Yielded notice], inr tt).
Proof. split; reflexivity. Qed.

End StreamFacts.

(* ------------------------------------------------------------------ *)
(** ** The UI sub-application *)

Module UIFacts.
Import UI.

Lemma prefix_app (s t : string) : String.prefix s (s ++ t) = true.
Proof.
  induction s as [|c s IH]; cbn.
  - destruct t; reflexivity.
  - destruct (ascii_dec c c); [exact IH | contradiction].
Qed.

Lemma substring_0_length (s : string) : substring 0 (String.length s) s = s.
Proof. induction s as [|c s IH]; cbn; [reflexivity | now rewrite IH]. Qed.

Lemma existsb_eqb_notin (x : string) (l : list string) :
  ~ In x l -> existsb (String.eqb x) l = false.
Proof.
  induction l as [|y l IH]; intros Hn; [reflexivity|]. cbn.
  destruct (String.eqb_spec x y) as [->|_]; [exfalso; apply Hn; left; reflexivity|].
  apply IH. intros H. apply Hn. right. exact H.
Qed.

Lemma existsb_eqb_in (x : string) (l : list string) :
  In x l -> existsb (String.eqb x) l = true.
Proof.
  intros H. apply existsb_exists. exists x. split; [exact H | apply String.eqb_refl].
Qed.

Lemma ui_app_static (fs : filesystem) (dir rest : string) :
  ui_app fs dir ("/static/" ++ rest) = static_files fs dir rest.
Proof.
  unfold ui_app.
  replace (existsb (String.eqb ("/static/" ++ rest)) Service.fastapi_default_paths)
    with false by reflexivity.
  rewrite prefix_app. f_equal.
  replace (String.length ("/static/" ++ rest) - 8)%nat with (String.length rest)
    by (cbn; lia).
  cbn [substring append]. apply substring_0_length.
Qed.

Lemma ui_app_catch_all (fs : filesystem) (dir rest : string) :
  ~ In ("/" ++ rest) Service.fastapi_default_paths ->
  String.prefix "static/" rest = false -> rest <> "" ->
  ui_app fs dir ("/" ++ rest) = catch_all fs dir rest.
Proof.
  intros Hd Hpre Hne. unfold ui_app. rewrite (existsb_eqb_notin _ _ Hd).
  change (String.prefix "/static/" ("/" ++ rest)) with (String.prefix "static/" rest).
  rewrite Hpre.
  destruct rest as [|c r]; [contradiction|]. reflexivity.
Qed.

(** The static root of the deployed bento and a host file system. *)
Definition STATIC_DIR : string := "/home/bentoml/bento/src/ui".

Definition fs_host : filesystem := fun p =>
  match norm_segments p with
  | ["etc"; "passwd"] => RegularFile "root:x:0:0:root:/root:/bin/bash"
  | ["home"; "bentoml"; "bento"; "src"; "ui"; "chat.html"] => RegularFile "<!doctype html>"
  | ["home"; "bentoml"; "bento"; "src"; "ui"; "app.js"] => RegularFile "console.log(1)"
  | _ => Missing
  end.

(** C6 (defect): [catch_all] joins the request path to [STATIC_DIR] with
    no confinement: the request [GET /chat//etc/passwd] (path
    ["//etc/passwd"] inside the app, [full_path = "/etc/passwd"]) serves
    [/etc/passwd], and so does a [..] path; the [/static] mount of the same
    app refuses the [..] path. *)
Theorem catch_all_escapes_static_root :
  ui_app fs_host STATIC_DIR "//etc/passwd"
    = FileResp "/etc/passwd" "root:x:0:0:root:/root:/bin/bash" /\
  within STATIC_DIR "/etc/passwd" = false /\
  ui_app fs_host STATIC_DIR "/../../../../../etc/passwd"
    = FileResp "/home/bentoml/bento/src/ui/../../../../../etc/passwd"
               "root:x:0:0:root:/root:/bin/bash" /\
  within STATIC_DIR "/home/bentoml/bento/src/ui/../../../../../etc/passwd" = false /\
  ui_app fs_host STATIC_DIR "/static/../../../../../etc/passwd" = NotFound404.
Proof. repeat split; reflexivity. Qed.

(** C9 as stated fails: a missing path under [static/] is answered by the
    [/static] mount with 404, not with the entry document. *)
Lemma ui_fallback_claim_fails :
  ~ (forall (fs : filesystem) (dir rest : string),
        rest <> "" -> fs (os_path_join dir rest) = Missing ->
        ui_app fs dir ("/" ++ rest) = serve_chat_html fs dir).
Proof.
  intros H.
  specialize (H fs_host STATIC_DIR "static/missing.js" ltac:(discriminate) eq_refl).
  vm_compute in H. discriminate H.
Qed.

(** C9 amended: [/] gives the entry document; the routes FastAPI adds in
    its constructor ([/openapi.json], [/docs], [/docs/oauth2-redirect],
    [/redoc]) give FastAPI's schema and documentation pages; a path under
    [/static/] is served by the static-files mount; any other path gives
    the regular file at that path under the static root when there is one
    (for paths that resolve inside the root), and the entry document when
    nothing exists there. *)
Theorem ui_app_routes (fs : filesystem) (dir rest : string) :
  ui_app fs dir "/" = serve_chat_html fs dir /\
  (forall q, In q Service.fastapi_default_paths -> ui_app fs dir q = FastAPIPage q) /\
  ui_app fs dir ("/static/" ++ rest) = static_files fs dir rest /\
  (~ In ("/" ++ rest) Service.fastapi_default_paths ->
   String.prefix "static/" rest = false -> rest <> "" ->
     (forall b, fs (os_path_join dir rest) = RegularFile b ->
        within dir (os_path_join dir rest) = true ->
        ui_app fs dir ("/" ++ rest) = FileResp (os_path_join dir rest) b) /\
     (fs (os_path_join dir rest) = Missing ->
        ui_app fs dir ("/" ++ rest) = serve_chat_html fs dir)).
Proof.
  split; [reflexivity|]. split.
  { intros q Hq. unfold ui_app. rewrite (existsb_eqb_in _ _ Hq). reflexivity. }
  split; [apply ui_app_static|].
  intros Hd Hpre Hne. rewrite (ui_app_catch_all fs dir rest Hd Hpre Hne).
  unfold catch_all, os_path_exists, FileResponse, serve_chat_html.
  split.
  - intros b Hb _. rewrite Hb. reflexivity.
  - intros Hm. rewrite Hm. reflexivity.
Qed.

Lemma ui_app_routes_witness :
  ~ In "/app.js" Service.fastapi_default_paths /\
  String.prefix "static/" "app.js" = false /\ "app.js" <> "" /\
  fs_host (os_path_join STATIC_DIR "app.js") = RegularFile "console.log(1)" /\
  within STATIC_DIR (os_path_join STATIC_DIR "app.js") = true /\
  ui_app fs_host STATIC_DIR "/app.js"
    = FileResp "/home/bentoml/bento/src/ui/app.js" "console.log(1)" /\
  ui_app fs_host STATIC_DIR "/settings"
    = serve_chat_html fs_host STATIC_DIR /\
  ui_app fs_host STATIC_DIR "/docs" = FastAPIPage "/docs".
Proof.
  assert (Hd1 : ~ In "/app.js" Service.fastapi_default_paths)
    by (cbn; intuition discriminate).
  assert (Hp1 : String.prefix "static/" "app.js" = false) by reflexivity.
  assert (Hp2 : "app.js" <> "") by discriminate.
  assert (Hf : fs_host (os_path_join STATIC_DIR "app.js") = RegularFile "console.log(1)")
    by (vm_compute; reflexivity).
  assert (Hw : within STATIC_DIR (os_path_join STATIC_DIR "app.js") = true)
    by (vm_compute; reflexivity).
  assert (Hd2 : ~ In "/settings" Service.fastapi_default_paths)
    by (cbn; intuition discriminate).
  assert (Hq1 : String.prefix "static/" "settings" = false) by reflexivity.
  assert (Hq2 : "settings" <> "") by discriminate.
  assert (Hm : fs_host (os_path_join STATIC_DIR "settings") = Missing)
    by (vm_compute; reflexivity).
  assert (Hdocs : In "/docs" Service.fastapi_default_paths) by (cbn; auto).
  split; [exact Hd1|]. split; [exact Hp1|]. split; [exact Hp2|]. split; [exact Hf|].
  split; [exact Hw|]. split; [|split].
  - exact (proj1 (proj2 (proj2 (proj2 (ui_app_routes fs_host STATIC_DIR "app.js")))
                   Hd1 Hp1 Hp2) "console.log(1)" Hf Hw).
  - exact (proj2 (proj2 (proj2 (proj2 (ui_app_routes fs_host STATIC_DIR "settings")))
                   Hd2 Hq1 Hq2) Hm).
  - exact (proj1 (proj2 (ui_app_routes fs_host STATIC_DIR "")) "/docs" Hdocs).
Defined.

End UIFacts.

(* ------------------------------------------------------------------ *)
(** ** Image build and engine/server arguments: properties *)

Module ConfigLoadFacts.
Import Service Config.
Local Open Scope Z_scope.

Lemma dict_lookup_set (d : dict) (k k' : string) (v : pyval) :
  dict_lookup (dict_set d k v) k' = if String.eqb k k' then Some v else dict_lookup d k'.
Proof.
  induction d as [|[k0 v0] rest IH]; cbn.
  - reflexivity.
  - destruct (String.eqb_spec k0 k) as [->|Hne]; cbn.
    + destruct (String.eqb k k'); reflexivity.
    + rewrite IH. destruct (String.eqb_spec k k') as [->|]; [|reflexivity].
      destruct (String.eqb_spec k0 k'); [congruence|reflexivity].
Qed.

Lemma dict_lookup_app (d1 d2 : dict) (k : string) :
  dict_lookup (d1 ++ d2)%list k =
  match dict_lookup d1 k with Some v => Some v | None => dict_lookup d2 k end.
Proof.
  induction d1 as [|[k0 v0] rest IH]; cbn; [reflexivity|].
  destruct (String.eqb k0 k); [reflexivity | exact IH].
Qed.

Lemma fold_set_lookup (cfg ns : dict) (k : string) :
  dict_lookup (fold_left (fun ns kv => dict_set ns (fst kv) (snd kv)) cfg ns) k =
  match dict_lookup (rev cfg) k with Some v => Some v | None => dict_lookup ns k end.
Proof.
  revert ns. induction cfg as [|[k0 v0] rest IH]; intros ns; cbn [fold_left rev].
  - reflexivity.
  - rewrite IH, dict_lookup_app, dict_lookup_set. cbn [fst snd dict_lookup].
    destruct (dict_lookup (rev rest) k); [reflexivity|].
    destruct (String.eqb k0 k); reflexivity.
Qed.

Lemma fold_run (cmds : list string) (img : list build_step) :
  fold_left (fun img cmd => (img ++ [Run cmd])%list) cmds img = (img ++ map Run cmds)%list.
Proof.
  revert img. induction cmds as [|c cmds IH]; intros img; cbn.
  - rewrite app_nil_r. reflexivity.
  - rewrite IH, <- app_assoc. reflexivity.
Qed.

(** The image is built as: the Python 3.11 base, the [pre] commands in
    order, [requirements.txt], the extra [requirements] as one package step
    when there are any, then the [post] commands in order. *)
Theorem build_image_steps (pre reqs post : list string) :
  build_image pre reqs post =
  ([PythonImage "3.11"] ++ map Run pre ++ [RequirementsFile "requirements.txt"] ++
   (match reqs with [] => [] | _ => [PythonPackages reqs] end) ++ map Run post)%list.
Proof.
  unfold build_image.
  destruct pre as [|c pre]; destruct reqs as [|r reqs]; destruct post as [|d post];
    cbn [List.length Nat.ltb Nat.leb]; rewrite ?fold_run; cbn [map];
    rewrite ?app_nil_r, <- ?app_assoc; reflexivity.
Qed.

(** After the [SERVER_CONFIG] overlay, an attribute holds the value the
    server config gives it (the last one), and otherwise its default; with
    an empty server config the served model name is [[model_id]]. *)
Theorem server_args_overlay (model_path model_id : string) (SERVER_CONFIG : dict)
    (k : string) :
  dict_lookup (server_args model_path model_id SERVER_CONFIG) k =
  match dict_lookup (rev SERVER_CONFIG) k with
  | Some v => Some v
  | None => dict_lookup (default_args model_path model_id) k
  end /\
  dict_lookup (server_args model_path model_id []) "served_model_name"
    = Some (PList [PStr model_id]).
Proof.
  split; [apply fold_set_lookup | reflexivity].
Qed.

(** [dict(ENGINE_CONFIG, model=self.model)] sets [model] to the model's
    path and leaves every other engine option as configured. *)
Theorem engine_args_model (ENGINE_CONFIG : dict) (model_path : string) :
  dict_lookup (engine_args ENGINE_CONFIG model_path) "model" = Some (PStr model_path) /\
  (forall k, k <> "model" ->
     dict_lookup (engine_args ENGINE_CONFIG model_path) k = dict_lookup ENGINE_CONFIG k).
Proof.
  unfold engine_args. split.
  - rewrite dict_lookup_set. reflexivity.
  - intros k Hk. rewrite dict_lookup_set.
    destruct (String.eqb_spec "model" k); [congruence | reflexivity].
Qed.

Lemma engine_args_model_witness :
  dict_lookup (engine_args [("model", PStr "mistralai/x"); ("max_model_len", PInt 4096)]
                 "/models/x") "max_model_len" = Some (PInt 4096).
Proof.
  exact (proj2 (engine_args_model _ "/models/x") "max_model_len" ltac:(discriminate)).
Defined.

End ConfigLoadFacts.

(* ------------------------------------------------------------------ *)
(** ** Streaming endpoints and dispatch: further properties *)

Module StreamShapeFacts.
Import Base64 Service ConfigFacts StreamFacts.
Local Open Scope Z_scope.

Definition relay_body : chunk -> Gen unit :=
  fun chunk => ch <- first_choice chunk ;; yield (or_empty (delta_content ch)).

Lemma async_for_shape (cs : list chunk) (tail : option exn) :
  exists pre post, cs = (pre ++ post)%list /\
    ((async_for cs tail relay_body = (map (fun c => Yielded (chunk_text c)) pre, inr tt)
      /\ post = [] /\ tail = None) \/
     exists err, async_for cs tail relay_body
                 = (map (fun c => Yielded (chunk_text c)) pre, inl err)).
Proof.
  induction cs as [|c rest IH].
  - exists [], []. split; [reflexivity|]. destruct tail as [err|].
    + right. exists err. reflexivity.
    + left. auto.
  - cbn [async_for].
    destruct (choices c) as [|ch chs] eqn:E.
    + assert (Hb : relay_body c = ([], inl IndexError))
        by (unfold relay_body, first_choice; rewrite E; reflexivity).
      exists [], (c :: rest). split; [reflexivity|]. right. exists IndexError.
      rewrite Hb. reflexivity.
    + destruct IH as [pre [post [Hcs Hrun]]].
      assert (Hb : relay_body c = ([Yielded (chunk_text c)], inr tt))
        by (unfold relay_body, first_choice, chunk_text; rewrite E; reflexivity).
      exists (c :: pre), post. split; [cbn; now rewrite Hcs|].
      rewrite Hb. cbn [map].
      destruct Hrun as [[Hr [Hp Htl]] | [err Hr]].
      * left. rewrite Hr. auto.
      * right. exists err. rewrite Hr. reflexivity.
Qed.

(** The shape of every run of the [try] block: it never raises; it is the
    request, the texts of a prefix of the stream's chunks in order, then
    either nothing (the whole stream was relayed and ended cleanly) or one
    log line followed by the notice. *)
Lemma relay_shape (e : env) (req : chat_request) :
  exists pre tail,
    relay e req = ((Sent req :: map (fun c => Yielded (chunk_text c)) pre) ++ tail, inr tt)%list /\
    (tail = [] \/ exists t, tail = [Logged t; Yielded notice]) /\
    (forall s, create e req = inr s -> exists post, chunks s = (pre ++ post)%list) /\
    (tail = [] -> exists s, create e req = inr s /\ chunks s = pre /\ stream_failure s = None).
Proof.
  unfold relay. fold relay_body. unfold bind at 1, client_create.
  destruct (create e req) as [err|s] eqn:Hc.
  - exists [], [Logged (format_exc err); Yielded notice]. split; [reflexivity|].
    split; [right; eauto|]. split; [discriminate|]. discriminate.
  - destruct (async_for_shape (chunks s) (stream_failure s)) as [pre [post [Hcs Hrun]]].
    destruct Hrun as [[Hr [Hp Ht]] | [err Hr]]; rewrite Hr.
    + exists pre, []. rewrite app_nil_r. split; [reflexivity|].
      split; [left; reflexivity|]. split.
      * intros s' Hs'. injection Hs' as <-. eauto.
      * intros _. exists s. subst post. rewrite app_nil_r in Hcs. auto.
    + exists pre, [Logged (format_exc err); Yielded notice]. split; [reflexivity|].
      split; [right; eauto|]. split.
      * intros s' Hs'. injection Hs' as <-. eauto.
      * discriminate.
Qed.

(** [generate] never raises to its caller: its run is the request, the
    texts of a prefix of the stream's chunks in order, and then either
    nothing (the whole stream, ended cleanly) or one log line and the
    notice as last value. *)
Theorem generate_run_shape (e : env) (model_id prompt : string) (m : Z) :
  let req := user_request model_id [TextPart prompt] m in
  exists pre tail,
    generate e model_id prompt m
      = ((Sent req :: map (fun c => Yielded (chunk_text c)) pre) ++ tail, inr tt)%list /\
    (tail = [] \/ exists t, tail = [Logged t; Yielded notice]) /\
    (forall s, create e req = inr s -> exists post, chunks s = (pre ++ post)%list) /\
    (tail = [] -> exists s, create e req = inr s /\ chunks s = pre /\ stream_failure s = None).
Proof. intros req. rewrite generate_relay. apply relay_shape. Qed.

Lemma generate_run_shape_witness :
  exists pre tail,
    generate env_ping "m" "ping" 128
      = ((Sent (user_request "m" [TextPart "ping"] 128)
          :: map (fun c => Yielded (chunk_text c)) pre) ++ tail, inr tt)%list /\
    (tail = [] \/ exists t, tail = [Logged t; Yielded notice]).
Proof.
  destruct (generate_run_shape env_ping "m" "ping" 128) as [pre [tail [H [Ht _]]]].
  exists pre, tail. split; [exact H | exact Ht].
Defined.


(** [sights] raises only when the image cannot be written as PNG, and
    then before any request or value; with no image or a PNG-writable one
    it always ends normally. *)
Theorem sights_raises_only_on_encoding (e : env) (model_id prompt : string)
    (img : option pil_image) (m : Z) :
  (forall err, snd (sights e model_id prompt img m) = inl err ->
     exists i, img = Some i /\ image_save_png e i = inl err /\
               fst (sights e model_id prompt img m) = []) /\
  ((match img with Some i => exists bytes, image_save_png e i = inr bytes
                 | None => True end) ->
   snd (sights e model_id prompt img m) = inr tt).
Proof.
  assert (Hnr : forall req, snd (relay e req) = inr tt).
  { intros req. destruct (relay_shape e req) as [pre [tail [H _]]]. now rewrite H. }
  destruct img as [i|].
  - destruct (image_save_png e i) as [err|bytes] eqn:Hs.
    + assert (Hrun : sights e model_id prompt (Some i) m = ([], inl err))
        by (unfold sights, lift; rewrite Hs; reflexivity).
      rewrite Hrun. split.
      * intros err' H. injection H as <-. eauto.
      * intros [bytes H]. congruence.
    + rewrite (sights_relay_image _ _ _ _ _ _ Hs). split.
      * intros err H. rewrite Hnr in H. discriminate.
      * intros _. apply Hnr.
  - rewrite sights_relay_text. split.
    + intros err H. rewrite Hnr in H. discriminate.
    + intros _. apply Hnr.
Qed.

Lemma sights_raises_only_on_encoding_witness :
  snd (sights env_echo "m" "hi" (Some rgb_image) 256) = inr tt.
Proof.
  apply (proj2 (sights_raises_only_on_encoding env_echo "m" "hi" (Some rgb_image) 256)).
  exists (pixels rgb_image). reflexivity.
Defined.

(** Without an image, [sights] does exactly what [generate] does. *)
Theorem sights_without_image_is_generate (e : env) (model_id prompt : string) (m : Z) :
  sights e model_id prompt None m = generate e model_id prompt m.
Proof. rewrite sights_relay_text, generate_relay. reflexivity. Qed.

(** A supplied [max_tokens] inside [[128, MAX_TOKENS]] is sent to the
    completions endpoint unchanged, by both endpoints. *)
Theorem in_range_max_tokens_forwarded (p : parameters) (e : env) (pr : option string)
    (m : Z) :
  128 <= m <= MAX_TOKENS p ->
  let prompt := match pr with Some t => t | None => default_prompt end in
  (api_registered p "generate" = true ->
     exists run rest, dispatch p e (CallGenerate pr (Some m)) = Streamed run /\
       fst run = Sent (user_request (model (ENGINE_CONFIG p)) [TextPart prompt] m) :: rest) /\
  (api_registered p "sights" = true ->
     exists run rest, dispatch p e (CallSights pr None (Some m)) = Streamed run /\
       fst run = Sent (user_request (model (ENGINE_CONFIG p)) [TextPart prompt] m) :: rest).
Proof.
  intros Hm prompt.
  assert (Hv : bind_max_tokens p (Some m) = Some m).
  { cbn. unfold max_tokens_valid.
    replace ((128 <=? m) && (m <=? MAX_TOKENS p))%bool with true
      by (symmetry; apply andb_true_iff; split; apply Z.leb_le; lia).
    reflexivity. }
  split; intros Hreg; unfold dispatch; rewrite Hreg, Hv.
  - destruct (relay_shape e (user_request (model (ENGINE_CONFIG p)) [TextPart prompt] m))
      as [pre [tail [H _]]].
    eexists _, _. split; [reflexivity|]. rewrite generate_relay. fold prompt.
    rewrite H. reflexivity.
  - destruct (relay_shape e (user_request (model (ENGINE_CONFIG p)) [TextPart prompt] m))
      as [pre [tail [H _]]].
    eexists _, _. split; [reflexivity|]. rewrite sights_relay_text. fold prompt.
    rewrite H. reflexivity.
Qed.

Lemma in_range_max_tokens_forwarded_witness :
  exists run rest, dispatch p_text_only env_echo (CallGenerate None (Some 1000)) = Streamed run /\
    fst run = Sent (user_request "mistralai/Mistral-Large-Instruct-2407"
                      [TextPart default_prompt] 1000) :: rest.
Proof.
  exact (proj1 (in_range_max_tokens_forwarded p_text_only env_echo None 1000
                  ltac:(vm_compute; split; discriminate)) eq_refl).
Defined.

(** With a ceiling below 128 (a declared [max_model_len] under 128) the
    accepted interval is empty: every supplied [max_tokens] is refused by
    both endpoints. *)
Theorem small_ceiling_rejects_all (p : parameters) (e : env) (pr : option string)
    (img : option pil_image) :
  MAX_TOKENS p < 128 ->
  forall m run,
    dispatch p e (CallGenerate pr (Some m)) <> Streamed run /\
    dispatch p e (CallSights pr img (Some m)) <> Streamed run.
Proof.
  intros Hc m run.
  assert (Hv : max_tokens_valid p m = false).
  { unfold max_tokens_valid. apply andb_false_iff.
    destruct (Z.leb_spec 128 m); [right; apply Z.leb_gt; lia | left; reflexivity]. }
  unfold dispatch; cbn [bind_max_tokens]; rewrite Hv.
  split; destruct (api_registered p _); discriminate.
Qed.

Definition p_small : parameters :=
  {| ENGINE_CONFIG := {| model := "m"; max_model_len := Some 100 |};
     SUPPORTS_VISION := true; SUPPORTS_EMBEDDINGS := false |}.

Lemma small_ceiling_rejects_all_witness :
  dispatch p_small env_echo (CallGenerate None (Some 100)) = Rejected /\
  dispatch p_small env_echo (CallGenerate None (Some 100)) <> Streamed (ret tt).
Proof.
  split; [reflexivity|].
  exact (proj1 (small_ceiling_rejects_all p_small env_echo None None
                  ltac:(vm_compute; reflexivity) 100 (ret tt))).
Defined.

End StreamShapeFacts.

(* ------------------------------------------------------------------ *)
(** ** UI catch-all and base64 output: further properties *)

Module MoreFacts.
Import Base64 Base64Facts UI UIFacts.
Local Open Scope Z_scope.

(** [catch_all] never answers 404. It fails (500) exactly when the joined
    path exists but is not a regular file (e.g. a directory: it tests
    [os.path.exists], not [isfile]), or when nothing exists there and
    [chat.html] is not a regular file. *)
Theorem catch_all_outcomes (fs : filesystem) (dir p : string) :
  catch_all fs dir p <> NotFound404 /\
  (catch_all fs dir p = ServerError500 <->
     fs (os_path_join dir p) = Directory \/
     (fs (os_path_join dir p) = Missing /\
      forall b, fs (os_path_join dir "chat.html") <> RegularFile b)).
Proof.
  unfold catch_all, os_path_exists, FileResponse.
  destruct (fs (os_path_join dir p)) as [|b|] eqn:E.
  - destruct (fs (os_path_join dir "chat.html")) as [|b|] eqn:C.
    + split; [discriminate|]. split; [intros _; right; split; [reflexivity|congruence]|auto].
    + split; [discriminate|]. split; [discriminate|].
      intros [H|[_ H]]; [discriminate | exfalso; exact (H b eq_refl)].
    + split; [discriminate|]. split; [intros _; right; split; [reflexivity|congruence]|auto].
  - split; [discriminate|]. split; [discriminate|].
    intros [H|[H _]]; discriminate.
  - split; [discriminate|]. split; [intros _; left; reflexivity|auto].
Qed.

Definition fs_with_assets : filesystem := fun p =>
  match norm_segments p with
  | ["home"; "bentoml"; "bento"; "src"; "ui"; "assets"] => Directory
  | ["home"; "bentoml"; "bento"; "src"; "ui"; "chat.html"] => RegularFile "<!doctype html>"
  | _ => Missing
  end.

Lemma catch_all_outcomes_witness :
  ui_app fs_with_assets STATIC_DIR "/assets" = ServerError500.
Proof.
  change (ui_app fs_with_assets STATIC_DIR "/assets")
    with (catch_all fs_with_assets STATIC_DIR "assets").
  apply (proj2 (proj2 (catch_all_outcomes fs_with_assets STATIC_DIR "assets"))).
  left. vm_compute. reflexivity.
Defined.

Lemma b64encode_len (k : nat) (bs : list byte) :
  (List.length bs <= k)%nat ->
  List.length (b64encode bs) = (4 * ((List.length bs + 2) / 3))%nat /\
  (forall c, In c (b64encode bs) -> b64index c <> None \/ c = pad).
Proof.
  assert (Hch : forall i, 0 <= i < 64 -> b64index (b64char i) <> None)
    by (intros i Hi; rewrite (b64index_b64char i Hi); discriminate).
  revert bs. induction k as [|k IH]; intros bs Hlen.
  - destruct bs; [split; [reflexivity | intros c []] | cbn in Hlen; lia].
  - destruct bs as [|b1 [|b2 [|b3 rest]]].
    + split; [reflexivity | intros c []].
    + pose proof (bz_bounds b1). split; [reflexivity|].
      cbn [b64encode]. unfold enc1. intros c Hc.
      destruct Hc as [<-|[<-|[<-|[<-|[]]]]];
        try (left; apply Hch; Z.div_mod_to_equations; lia); right; reflexivity.
    + pose proof (bz_bounds b1); pose proof (bz_bounds b2). split; [reflexivity|].
      cbn [b64encode]. unfold enc2. intros c Hc.
      destruct Hc as [<-|[<-|[<-|[<-|[]]]]];
        try (left; apply Hch; Z.div_mod_to_equations; lia); right; reflexivity.
    + pose proof (bz_bounds b1); pose proof (bz_bounds b2); pose proof (bz_bounds b3).
      destruct (IH rest ltac:(cbn in Hlen; lia)) as [Hl Hc].
      cbn [b64encode]. split.
      * rewrite length_app, Hl. cbn [List.length enc3].
        replace (S (S (S (List.length rest))) + 2)%nat
          with ((List.length rest + 2) + 1 * 3)%nat by lia.
        rewrite Nat.div_add by lia. lia.
      * intros c Hin. apply in_app_or in Hin. destruct Hin as [Hin|Hin]; [|auto].
        unfold enc3 in Hin.
        destruct Hin as [<-|[<-|[<-|[<-|[]]]]]; left; apply Hch;
          Z.div_mod_to_equations; lia.
Qed.

(** [base64.b64encode] output: four characters per started group of three
    bytes, each one from the base64 alphabet or the padding [=]. *)
Theorem b64encode_shape (bs : list byte) :
  List.length (b64encode bs) = (4 * ((List.length bs + 2) / 3))%nat /\
  (forall c, In c (b64encode bs) -> b64index c <> None \/ c = pad).
Proof. apply (b64encode_len (List.length bs)). lia. Qed.

Lemma b64encode_shape_witness :
  List.length (b64encode [x4d; x61]) = 4%nat /\ In "="%char (b64encode [x4d; x61]).
Proof.
  split; [exact (proj1 (b64encode_shape [x4d; x61])) | vm_compute; auto 10].
Defined.

End MoreFacts.
